(** * Aggregation, statistics, series and CSV helpers of the dashboard views

    Shallow embedding of the client-side data layer of the three analytics
    views: the treatment view (column classification, [baseAgg], CSV export),
    the factors view ([basePoints], [linearStats], trend line, CSV export) and
    the performance view ([movingAvg], index normalisation, CSV export).

    JavaScript numbers are modelled as exact real numbers extended with the
    three IEEE special values (+Infinity, -Infinity, NaN); rounding, overflow
    and the sign of zero are not modelled there. Module [Dbl] models
    [baseAgg], [linearStats] and the trend line again with JavaScript numbers
    as IEEE 754 binary64 floats, rounding included. *)

From Stdlib Require Import Ascii String.
From Stdlib Require Import Reals Lra Lia List Bool ZArith Permutation Sorted.
From Stdlib Require Import OrderedTypeEx.
From Stdlib Require Floats.
Import ListNotations.
Open Scope R_scope.

(** ** JavaScript numbers and values *)

Inductive num : Type :=
| Fin (r : R)
| PInf
| NInf
| NaN.

(** [isFiniteNum(n)] *)
Definition isFiniteNum (n : num) : bool :=
  match n with Fin _ => true | _ => false end.

(** global [isNaN] applied to a number *)
Definition isNaN (n : num) : bool :=
  match n with NaN => true | _ => false end.

Definition Rltb (a b : R) : bool := if Rlt_dec a b then true else false.
Definition Reqb (a b : R) : bool := if Req_dec_T a b then true else false.

(** [-x] *)
Definition jneg (a : num) : num :=
  match a with
  | Fin x => Fin (- x) | PInf => NInf | NInf => PInf | NaN => NaN
  end.

(** [a + b] *)
Definition jadd (a b : num) : num :=
  match a, b with
  | NaN, _ | _, NaN => NaN
  | PInf, NInf | NInf, PInf => NaN
  | PInf, _ | _, PInf => PInf
  | NInf, _ | _, NInf => NInf
  | Fin x, Fin y => Fin (x + y)
  end.

(** [a - b] *)
Definition jsub (a b : num) : num := jadd a (jneg b).

(** the infinity carrying the sign of a non-zero real *)
Definition inf_of_sign (x : R) : num := if Rltb 0 x then PInf else NInf.

(** [a * b] *)
Definition jmul (a b : num) : num :=
  match a, b with
  | NaN, _ | _, NaN => NaN
  | Fin x, Fin y => Fin (x * y)
  | Fin x, PInf | PInf, Fin x =>
      if Reqb x 0 then NaN else inf_of_sign x
  | Fin x, NInf | NInf, Fin x =>
      if Reqb x 0 then NaN else inf_of_sign (- x)
  | PInf, PInf | NInf, NInf => PInf
  | PInf, NInf | NInf, PInf => NInf
  end.

(** [a / b] *)
Definition jdiv (a b : num) : num :=
  match a, b with
  | NaN, _ | _, NaN => NaN
  | Fin x, Fin y =>
      if Reqb y 0 then (if Reqb x 0 then NaN else inf_of_sign x)
      else Fin (x / y)
  | Fin _, PInf | Fin _, NInf => Fin 0
  | PInf, Fin y => if Rltb y 0 then NInf else PInf
  | NInf, Fin y => if Rltb y 0 then PInf else NInf
  | _, _ => NaN
  end.

(** [Math.sqrt(x)] of a finite argument *)
Definition Math_sqrt (x : R) : num :=
  if Rltb x 0 then NaN else Fin (sqrt x).

(** Cell values of a row, as delivered by the JSON API. *)
Inductive jsval : Type :=
| JUndef
| JNull
| JBool (b : bool)
| JNum (n : num)
| JStr (s : string).

(** A row: a JSON object, as its list of (key, value) entries in key order. *)
Definition row := list (string * jsval).

(** [r[k]]: a missing key reads as [undefined]. *)
Definition get (r : row) (k : string) : jsval :=
  match find (fun e => String.eqb (fst e) k) r with
  | Some (_, v) => v
  | None => JUndef
  end.

(** ** [Number(v)] *)

(** StrWhiteSpaceChar among the code units below 256: TAB, LF, VT, FF, CR,
    SP and NO-BREAK SPACE (U+00A0). *)
Definition is_ws (c : ascii) : bool :=
  match nat_of_ascii c with
  | 9 | 10 | 11 | 12 | 13 | 32 | 160 => true
  | _ => false
  end%nat.

Fixpoint drop_ws (l : list ascii) : list ascii :=
  match l with
  | c :: t => if is_ws c then drop_ws t else l
  | [] => []
  end.

Definition trim (l : list ascii) : list ascii := rev (drop_ws (rev (drop_ws l))).

(** value of a digit in the given radix *)
Definition digit_val (radix : Z) (c : ascii) : option Z :=
  let n := Z.of_nat (nat_of_ascii c) in
  let d :=
    if ((48 <=? n) && (n <=? 57))%Z then Some (n - 48)%Z
    else if ((97 <=? n) && (n <=? 102))%Z then Some (n - 87)%Z
    else if ((65 <=? n) && (n <=? 70))%Z then Some (n - 55)%Z
    else None in
  match d with
  | Some v => if (v <? radix)%Z then Some v else None
  | None => None
  end.

Fixpoint take_digits (radix : Z) (l : list ascii) : list Z * list ascii :=
  match l with
  | c :: t =>
      match digit_val radix c with
      | Some d => let (ds, r) := take_digits radix t in (d :: ds, r)
      | None => ([], l)
      end
  | [] => ([], [])
  end.

Definition digits_value (radix : Z) (ds : list Z) : Z :=
  fold_left (fun a d => (a * radix + d)%Z) ds 0%Z.

Definition is_char (c : ascii) (ch : ascii) : bool := Ascii.eqb c ch.

(** NonDecimalIntegerLiteral after its [0x] / [0o] / [0b] prefix *)
Definition parse_prefixed (radix : Z) (l : list ascii) : num :=
  match take_digits radix l with
  | ((_ :: _) as ds, []) => Fin (IZR (digits_value radix ds))
  | _ => NaN
  end.

(** optional exponent part: [e] / [E], optional sign, at least one digit *)
Definition parse_exponent (l : list ascii) : option Z :=
  match l with
  | [] => Some 0%Z
  | c :: t =>
      if is_char c "e" || is_char c "E" then
        let '(s, u) :=
          match t with
          | c' :: u' =>
              if is_char c' "+" then (1%Z, u')
              else if is_char c' "-" then ((-1)%Z, u')
              else (1%Z, t)
          | [] => (1%Z, t)
          end in
        match take_digits 10 u with
        | ((_ :: _) as ds, []) => Some (s * digits_value 10 ds)%Z
        | _ => None
        end
      else None
  end.

(** StrUnsignedDecimalLiteral without [Infinity]: digits, an optional
    fraction (at least one digit on either side of the dot) and an optional
    exponent; its value is the exact decimal number. *)
Definition parse_unsigned_decimal (l : list ascii) : option R :=
  let '(d1, r1) := take_digits 10 l in
  let '(d2, r2) :=
    match r1 with
    | c :: t => if is_char c "." then take_digits 10 t else ([], r1)
    | [] => ([], r1)
    end in
  match d1 ++ d2 with
  | [] => None
  | ds =>
      match parse_exponent r2 with
      | Some e =>
          Some (IZR (digits_value 10 ds) *
                powerRZ 10 (e - Z.of_nat (length d2)))
      | None => None
      end
  end.

Definition Infinity_chars : list ascii := list_ascii_of_string "Infinity".

(** StringToNumber: [Number(s)] for a string [s]. *)
Definition StringToNumber (s : string) : num :=
  let t := trim (list_ascii_of_string s) in
  match t with
  | [] => Fin 0
  | c0 :: c1 :: rest =>
      if is_char c0 "0" && (is_char c1 "x" || is_char c1 "X") then
        parse_prefixed 16 rest
      else if is_char c0 "0" && (is_char c1 "o" || is_char c1 "O") then
        parse_prefixed 8 rest
      else if is_char c0 "0" && (is_char c1 "b" || is_char c1 "B") then
        parse_prefixed 2 rest
      else
        let '(neg, u) :=
          if is_char c0 "-" then (true, c1 :: rest)
          else if is_char c0 "+" then (false, c1 :: rest)
          else (false, t) in
        if list_eq_dec ascii_dec u Infinity_chars then
          (if neg then NInf else PInf)
        else match parse_unsigned_decimal u with
             | Some v => Fin (if neg then - v else v)
             | None => NaN
             end
  | [c0] =>
      match parse_unsigned_decimal [c0] with
      | Some v => Fin v
      | None => NaN
      end
  end.

(** [Number(v)] *)
Definition Number (v : jsval) : num :=
  match v with
  | JUndef => NaN
  | JNull => Fin 0
  | JBool b => Fin (if b then 1 else 0)
  | JNum n => n
  | JStr s => StringToNumber s
  end.

(** [toNum(v)]: [const n = Number(v); return isNaN(n) ? NaN : n;] *)
Definition toNum (v : jsval) : num :=
  let n := Number v in if isNaN n then NaN else n.

(** ** Column classification (treatment and factors views)

    [const keys = Object.keys(rows[0]);
     const numeric = keys.filter((k) =>
       rows.every((r) => r[k] === "" || !isNaN(Number(r[k]))));
     const categorical = keys.filter((k) => !numeric.includes(k));] *)

(** [r[k] === ""] *)
Definition is_empty_str (v : jsval) : bool :=
  match v with JStr EmptyString => true | _ => false end.

Definition numeric_col (rows : list row) (k : string) : bool :=
  forallb (fun r => is_empty_str (get r k) || negb (isNaN (Number (get r k)))) rows.

Definition numericCols (rows : list row) : list string * list string :=
  match rows with
  | [] => ([], [])
  | r0 :: _ =>
      let keys := map fst r0 in
      let numeric := filter (numeric_col rows) keys in
      let categorical :=
        filter (fun k => negb (existsb (String.eqb k) numeric)) keys in
      (numeric, categorical)
  end.

(** ** Sorting: [Array.prototype.sort] with a comparator, a stable sort,
    written as an insertion sort: an element goes after every element
    already placed that does not compare greater than it. *)

Fixpoint sort_insert {A} (cmp : A -> A -> R) (x : A) (l : list A) : list A :=
  match l with
  | [] => [x]
  | y :: t => if Rltb 0 (cmp y x) then x :: l else y :: sort_insert cmp x t
  end.

Definition js_sort {A} (cmp : A -> A -> R) (l : list A) : list A :=
  fold_left (fun acc x => sort_insert cmp x acc) l [].

(** ** A JavaScript [Map] from strings to numbers, in insertion order. *)

Fixpoint map_get (m : list (string * R)) (k : string) : option R :=
  match m with
  | [] => None
  | (k', v) :: t => if String.eqb k' k then Some v else map_get t k
  end.

Fixpoint map_set (m : list (string * R)) (k : string) (v : R) : list (string * R) :=
  match m with
  | [] => [(k, v)]
  | (k', v') :: t =>
      if String.eqb k' k then (k, v) :: t else (k', v') :: map_set t k v
  end.

(** [isFiniteNum(n) ? n : 0] *)
Definition fin_or_zero (n : num) : R :=
  match n with Fin a => a | _ => 0 end.

(** [a.reduce((s, b) => s + b, 0)] over reals *)
Definition sumR (l : list R) : R := fold_left Rplus l 0.

Record bucket : Type := mkBucket { name : string; value : R }.

(** [arr.reduce((a, b) => a + b.value, 0)] *)
Definition sum_values (l : list bucket) : R :=
  fold_left (fun a b => a + value b) l 0.

Section Views.

(** [String(n)] for a number, and [String.prototype.localeCompare]: both
    depend on the host's number formatting and locale and are left abstract. *)
Variable Number_toString : num -> string.
Variable localeCompare : string -> string -> R.

(** [String(v)] *)
Definition String_of (v : jsval) : string :=
  match v with
  | JUndef => "undefined"
  | JNull => "null"
  | JBool true => "true"
  | JBool false => "false"
  | JNum n => Number_toString n
  | JStr s => s
  end.

(** [safeCat(v)]: [v == null || v === "" ? "Unknown" : String(v)] *)
Definition safeCat (v : jsval) : string :=
  match v with
  | JUndef | JNull | JStr EmptyString => "Unknown"
  | _ => String_of v
  end.

(** [safeStr(v)]: [v === null || v === undefined ? "Unknown" : String(v)] *)
Definition safeStr (v : jsval) : string :=
  match v with
  | JUndef | JNull => "Unknown"
  | _ => String_of v
  end.

(** one step of the grouping loop of [baseAgg] *)
Definition agg_step (cat metric : string) (m : list (string * R)) (r : row)
  : list (string * R) :=
  let key := safeCat (get r cat) in
  let addVal := if String.eqb metric "count" then Fin 1 else toNum (get r metric) in
  let curr := match map_get m key with Some c => c | None => 0 end in
  map_set m key (curr + fin_or_zero addVal).

(** the comparator chosen by the sort selector *)
Definition agg_cmp (sortBy : string) : bucket -> bucket -> R :=
  if String.eqb sortBy "name"
  then fun a b => localeCompare (name a) (name b)
  else fun a b => value b - value a.

(** top-N collapse of the sorted entries *)
Definition collapse (topN : Z) (entries : list bucket) : list bucket :=
  if ((0 <? topN) && (topN <? Z.of_nat (length entries)))%Z then
    let head := firstn (Z.to_nat topN) entries in
    let tail := skipn (Z.to_nat topN) entries in
    let otherSum := sum_values tail in
    head ++ [mkBucket "Other" otherSum]
  else entries.

(** [baseAgg] of the treatment view *)
Definition baseAgg (rows : list row) (cat metric sortBy : string) (topN : Z)
  : list bucket :=
  if String.eqb cat "" then [] else
  let m := fold_left (agg_step cat metric) rows [] in
  let entries := map (fun '(k, v) => mkBucket k v) m in
  let entries := js_sort (agg_cmp sortBy) entries in
  collapse topN entries.

End Views.

(** ** Regression statistics (factors view) *)

(** [points.filter(([x, y]) => isFiniteNum(x) && isFiniteNum(y))], the
    kept coordinates read as the reals they are *)
Fixpoint finite_pairs (points : list (num * num)) : list (R * R) :=
  match points with
  | [] => []
  | (Fin x, Fin y) :: t => (x, y) :: finite_pairs t
  | _ :: t => finite_pairs t
  end.

(** [pts.reduce((a, p) => a + f(p), 0)] *)
Definition sum_by (f : R * R -> R) (pts : list (R * R)) : R :=
  fold_left (fun a p => a + f p) pts 0.

(** truthiness of a number *)
Definition truthy (n : num) : bool :=
  match n with Fin x => negb (Reqb x 0) | NaN => false | _ => true end.

(** [a || b] on numbers *)
Definition js_or (a b : num) : num := if truthy a then a else b.

Record stats : Type := mkStats { st_r : num; st_slope : num; st_intercept : num }.

(** [linearStats(points)] *)
Definition linearStats (points : list (num * num)) : stats :=
  let pts := finite_pairs points in
  if (length pts <? 2)%nat then mkStats NaN NaN NaN else
  let n := INR (length pts) in
  let sx := sum_by fst pts in
  let sy := sum_by snd pts in
  let sxx := sum_by (fun p => fst p * fst p) pts in
  let syy := sum_by (fun p => snd p * snd p) pts in
  let sxy := sum_by (fun p => fst p * snd p) pts in
  let numR := n * sxy - sx * sy in
  let denR := Math_sqrt ((n * sxx - sx * sx) * (n * syy - sy * sy)) in
  let r := match denR with
           | Fin d => if Reqb d 0 then NaN else jdiv (Fin numR) denR
           | _ => jdiv (Fin numR) denR
           end in
  let slope := jdiv (Fin (n * sxy - sx * sy)) (js_or (Fin (n * sxx - sx * sx)) NaN) in
  let intercept := jdiv (jsub (Fin sy) (jmul slope (Fin sx))) (Fin n) in
  mkStats r slope intercept.


(** [trendline]: [if (!isFiniteNum(slope) || !isFiniteNum(intercept)) return [];
    const xmin = Number(xMin); const xmax = Number(xMax);
    if (isNaN(xmin) || isNaN(xmax)) return [];
    return [{x: xmin, y: slope * xmin + intercept}, {x: xmax, y: slope * xmax + intercept}];] *)
Definition trendline (slope intercept : num) (xMin xMax : jsval) : list (num * num) :=
  if negb (isFiniteNum slope) || negb (isFiniteNum intercept) then [] else
  let xmin := Number xMin in
  let xmax := Number xMax in
  if isNaN xmin || isNaN xmax then [] else
  [(xmin, jadd (jmul slope xmin) intercept); (xmax, jadd (jmul slope xmax) intercept)].

(** ** Scatter points (factors view) *)

Record point : Type := mkPoint { px : num; py : num; pz : num; pc : string; raw : row }.

(** the point built from one row in [basePoints]:
    [{ x: toNum(r[x]), y: toNum(r[y]), z: z ? toNum(r[z]) || 1 : 1,
       c: colorBy ? safeStr(r[colorBy]) : "All", raw: r }] *)
Definition point_of (Number_toString : num -> string) (x y z colorBy : string) (r : row)
  : point :=
  mkPoint (toNum (get r x)) (toNum (get r y))
    (if String.eqb z "" then Fin 1 else js_or (toNum (get r z)) (Fin 1))
    (if String.eqb colorBy "" then "All" else safeStr Number_toString (get r colorBy))
    r.

(** [basePoints]: [if (!(x && y)) return []; rows.map(...).filter((p) =>
    isFiniteNum(p.x) && isFiniteNum(p.y))] *)
Definition basePoints (Number_toString : num -> string) (rows : list row)
    (x y z colorBy : string) : list point :=
  if String.eqb x "" || String.eqb y "" then [] else
  filter (fun p => isFiniteNum (px p) && isFiniteNum (py p))
    (map (point_of Number_toString x y z colorBy) rows).

(** ** CSV export *)

Definition dq : ascii := "034".
Definition nl : string := String "010" EmptyString.

(** [v.replace(/DQ/g, DQ DQ)]: every double quote (DQ) is doubled *)
Fixpoint dq_double (s : string) : string :=
  match s with
  | EmptyString => EmptyString
  | String c t =>
      if Ascii.eqb c dq then String dq (String dq (dq_double t))
      else String c (dq_double t)
  end.

(** [/[DQ,\n]/.test(v)]: the text holds a double quote, a comma or a newline *)
Fixpoint needs_quote (s : string) : bool :=
  match s with
  | EmptyString => false
  | String c t =>
      Ascii.eqb c dq || Ascii.eqb c "," || Ascii.eqb c "010" || needs_quote t
  end.

(** [csvSafe(s)]: null and undefined give the empty text, other values
    their [String(s)]; a text that needs quoting is wrapped in double quotes
    with its double quotes doubled, any other text is returned as it is. *)
Definition csvSafe (Number_toString : num -> string) (s : jsval) : string :=
  let v := match s with
           | JNull | JUndef => EmptyString
           | _ => String_of Number_toString s
           end in
  if needs_quote v then String dq (String.append (dq_double v) (String dq EmptyString))
  else v.

(** [arr.join(sep)] *)
Definition join (sep : string) (l : list string) : string :=
  match l with
  | [] => EmptyString
  | x :: t => fold_left (fun acc y => String.append acc (String.append sep y)) t x
  end.

(** the treatment view's [exportCSV]: [if (!cat) return;] then the header
    line and one line per data row, each followed by ["\n"]:
    [csv += hdr.join(",") + "\n"; for (...) csv += line.join(",") + "\n";] *)
Definition exportCSV_treatment (Number_toString : num -> string) (cat : string)
    (hdr : list string) (data : list (list jsval)) : option string :=
  if String.eqb cat "" then None else
  Some (fold_left
          (fun csv line =>
             String.append csv
               (String.append (join "," (map (csvSafe Number_toString) line)) nl))
          data (String.append (join "," hdr) nl)).

(** the performance view's [exportCSV]: [if (!processed.length) return;]
    then [lines.join("\n")] of the header line and one line per row *)
Definition exportCSV_performance (Number_toString : num -> string)
    (hdr : list string) (data : list (list jsval)) : option string :=
  match data with
  | [] => None
  | _ => Some (join nl (join "," hdr ::
                        map (fun line => join "," (map (csvSafe Number_toString) line)) data))
  end.

(** the factors view's [exportCSV]: [lines.join("\n")] of the header line
    and one line per filtered point *)
Definition exportCSV_factors (Number_toString : num -> string)
    (hdr : list string) (data : list (list jsval)) : option string :=
  Some (join nl (join "," hdr ::
                 map (fun line => join "," (map (csvSafe Number_toString) line)) data)).

(** A consumer's un-quoting of one CSV field, as the specification speaks
    of it (not code of the repository): a field opening with a double quote
    is read up to its closing double quote, a doubled double quote standing
    for one; any other field is taken as it is. *)
Fixpoint unquote_body (s : string) : string :=
  match s with
  | EmptyString => EmptyString
  | String c t =>
      if Ascii.eqb c dq then
        match t with
        | String c2 t2 => if Ascii.eqb c2 dq then String dq (unquote_body t2) else EmptyString
        | EmptyString => EmptyString
        end
      else String c (unquote_body t)
  end.

Definition unquote (s : string) : string :=
  match s with
  | String c t => if Ascii.eqb c dq then unquote_body t else s
  | EmptyString => EmptyString
  end.

(** ** Series transforms (performance view) *)

(** [movingAvg(arr, win)], the loop body for index [i] on the queue [q] and
    the running sum [sum]:
    [q.push(isFiniteNum(v) ? v : NaN);
     if (q.length > win) { const drop = q.shift(); if (isFiniteNum(drop)) sum -= drop; }
     if (isFiniteNum(v)) sum += v;
     const valid = q.filter(isFiniteNum);
     out[i] = valid.length === win ? valid.reduce((a, b) => a + b, 0) / win : NaN;] *)
Fixpoint movingAvg_loop (win : Z) (q : list num) (sum : R) (arr : list num)
  : list num :=
  match arr with
  | [] => []
  | v :: rest =>
      let q1 := q ++ [if isFiniteNum v then v else NaN] in
      let shifted := (win <? Z.of_nat (length q1))%Z in
      let drop := hd NaN q1 in
      let q2 := if shifted then tl q1 else q1 in
      let sum1 := if shifted && isFiniteNum drop then sum - fin_or_zero drop else sum in
      let sum2 := if isFiniteNum v then sum1 + fin_or_zero v else sum1 in
      let valid := filter isFiniteNum q2 in
      let o := if (Z.of_nat (length valid) =? win)%Z
               then Fin (sumR (map fin_or_zero valid) / IZR win)
               else NaN in
      o :: movingAvg_loop win q2 sum2 rest
  end.

(** [movingAvg(arr, win)]: a window of at most 1 returns a copy of [arr]. *)
Definition movingAvg (arr : list num) (win : Z) : list num :=
  if (win <=? 1)%Z then arr else movingAvg_loop win [] 0 arr.

(** [firstFinite(arr)] *)
Fixpoint firstFinite (arr : list num) : num :=
  match arr with
  | [] => NaN
  | v :: t => if isFiniteNum v then v else firstFinite t
  end.

(** index normalisation of one series in [processed]:
    [const base = firstFinite(arr);
     if (isFiniteNum(base))
       seriesData[key] = arr.map((v) => isFiniteNum(v) ? (v / base) * 100 : NaN);] *)
Definition normalize_index (arr : list num) : list num :=
  let base := firstFinite arr in
  if isFiniteNum base
  then map (fun v => if isFiniteNum v then jmul (jdiv v base) (Fin 100) else NaN) arr
  else arr.

(** the base series of [processed]: [limited.map((r) => toNum(r[key]))] *)
Definition series_of (rows : list row) (key : string) : list num :=
  map (fun r => toNum (get r key)) rows.

(** ** Ranges of a series and the range filter (factors and performance views) *)

(** [a < b] on numbers: false as soon as one side is NaN *)
Definition jlt (a b : num) : bool :=
  match a, b with
  | NaN, _ | _, NaN => false
  | Fin x, Fin y => Rltb x y
  | NInf, NInf => false
  | NInf, _ => true
  | Fin _, PInf => true
  | _, _ => false
  end.

(** [a <= b] on numbers: [b < a] is false and neither side is NaN *)
Definition jle (a b : num) : bool :=
  negb (isNaN a || isNaN b) && negb (jlt b a).

(** [finiteMin(arr)]: [arr.reduce((m, v) => (isFiniteNum(v) && v < m ? v : m), Infinity)] *)
Definition finiteMin (arr : list num) : num :=
  fold_left (fun m v => if isFiniteNum v && jlt v m then v else m) arr PInf.

(** [finiteMax(arr)]: [arr.reduce((m, v) => (isFiniteNum(v) && v > m ? v : m), -Infinity)] *)
Definition finiteMax (arr : list num) : num :=
  fold_left (fun m v => if isFiniteNum v && jlt m v then v else m) arr NInf.

(** min-max normalisation of one series in [processed]:
    [const mn = finiteMin(arr); const mx = finiteMax(arr); const rng = mx - mn;
     seriesData[key] = arr.map((v) => isFiniteNum(v) && rng > 0 ? (v - mn) / rng : NaN);] *)
Definition normalize_minmax (arr : list num) : list num :=
  let mn := finiteMin arr in
  let mx := finiteMax arr in
  let rng := jsub mx mn in
  map (fun v => if isFiniteNum v && jlt (Fin 0) rng then jdiv (jsub v mn) rng else NaN) arr.

(** [cap > 0 ? rows.slice(0, cap) : rows.slice()] *)
Definition limited_rows (rows : list row) (cap : Z) : list row :=
  if (0 <? cap)%Z then firstn (Z.to_nat cap) rows else rows.

(** the values [processed] plots for the series [key]:
    [seriesData[key] = limited.map((r) => toNum(r[key]));
     if (smooth > 0) seriesData[key] = movingAvg(seriesData[key], smooth);
     if (normalize === "index") { ... } else if (normalize === "minmax") { ... }]
    row [i] of the chart reads [seriesData[key][i]]. *)
Definition processed_series (rows : list row) (cap smooth : Z) (normalize key : string)
  : list num :=
  let s := series_of (limited_rows rows cap) key in
  let s := if (0 <? smooth)%Z then movingAvg s smooth else s in
  if String.eqb normalize "index" then normalize_index s
  else if String.eqb normalize "minmax" then normalize_minmax s
  else s.

(** the axis ranges of the factors view:
    [{ xMin: finiteMin(xs), xMax: finiteMax(xs), yMin: finiteMin(ys), yMax: finiteMax(ys) }]
    with [xs = basePoints.map((p) => p.x)] and [ys = basePoints.map((p) => p.y)] *)
Record domains_t : Type :=
  mkDomains { dom_xMin : num; dom_xMax : num; dom_yMin : num; dom_yMax : num }.

Definition domains (basePts : list point) : domains_t :=
  let xs := map px basePts in
  let ys := map py basePts in
  mkDomains (finiteMin xs) (finiteMax xs) (finiteMin ys) (finiteMax ys).

(** the range filter [filtered] over the four bound inputs:
    [const xmin = Number(xMin); const xmax = Number(xMax);
     const ymin = Number(yMin); const ymax = Number(yMax);
     return basePoints.filter((p) =>
       (isNaN(xmin) || p.x >= xmin) && (isNaN(xmax) || p.x <= xmax) &&
       (isNaN(ymin) || p.y >= ymin) && (isNaN(ymax) || p.y <= ymax));] *)
Definition filtered (basePts : list point) (xMin xMax yMin yMax : jsval) : list point :=
  let xmin := Number xMin in
  let xmax := Number xMax in
  let ymin := Number yMin in
  let ymax := Number yMax in
  filter (fun p =>
    (isNaN xmin || jle xmin (px p)) && (isNaN xmax || jle (px p) xmax) &&
    (isNaN ymin || jle ymin (py p)) && (isNaN ymax || jle (py p) ymax)) basePts.

(** ** Plain objects used as dictionaries *)







(** ** Colour groups of the factors view *)







(** ** Grouped aggregation of the treatment view *)










(** ** Labels *)

(** The text of a label as UTF-16 code units; the strings of the model hold
    code units below 256, one per character. *)
Definition code_units (s : string) : list Z :=
  map (fun c => Z.of_nat (nat_of_ascii c)) (list_ascii_of_string s).

(** the code unit of the ellipsis U+2026 *)
Definition ellipsis : Z := 8230%Z.

(** truthiness of a value, for [s || ""] *)
Definition truthy_val (v : jsval) : bool :=
  match v with
  | JUndef | JNull => false
  | JBool b => b
  | JNum n => truthy n
  | JStr s => negb (String.eqb s "")
  end.

(** [t.slice(0, e)]: a negative end counts from the end of [t] *)
Definition slice_to {A} (t : list A) (e : Z) : list A :=
  firstn (Z.to_nat (if (e <? 0)%Z then Z.max 0 (Z.of_nat (length t) + e) else e)) t.

(** [truncate(s, len)] of the treatment and factors views:
    [const t = String(s || ""); return t.length > len ? t.slice(0, len - 1) + "…" : t;] *)
Definition truncate (Number_toString : num -> string) (s : jsval) (len : Z) : list Z :=
  let t := code_units (String_of Number_toString (if truthy_val s then s else JStr "")) in
  if (Z.of_nat (length t) >? len)%Z then slice_to t (len - 1) ++ [ellipsis] else t.

(** ** [baseAgg], [linearStats] and the trend line in double precision

    The same code with JavaScript numbers as IEEE 754 binary64 floats (the
    primitive floats of the Standard Library), so that rounding is modelled.
    Parsing a string to a number, [String(n)] and [localeCompare] are left
    abstract. *)

Module Dbl.
Import Floats.
Local Open Scope float_scope.
Local Set Warnings "-inexact-float".

(** cell values of a row, numbers as doubles *)
Inductive dval : Type :=
| DUndef
| DNull
| DBool (b : bool)
| DNum (f : float)
| DStr (s : string).

Definition drow := list (string * dval).

(** [r[k]] *)
Definition get (r : drow) (k : string) : dval :=
  match find (fun e => String.eqb (fst e) k) r with
  | Some (_, v) => v
  | None => DUndef
  end.

(** [isFiniteNum(n)] of a number *)
Definition isFiniteNum (n : float) : bool := PrimFloat.is_finite n.

(** truthiness of a number: neither [0], [-0] nor [NaN] *)
Definition truthy (n : float) : bool := negb (is_nan n) && negb (n =? 0).

(** [a || b] on numbers *)
Definition js_or (a b : float) : float := if truthy a then a else b.

(** a JavaScript [Map] from strings to numbers, in insertion order *)
Fixpoint map_get (m : list (string * float)) (k : string) : option float :=
  match m with
  | [] => None
  | (k', v) :: t => if String.eqb k' k then Some v else map_get t k
  end.

Fixpoint map_set (m : list (string * float)) (k : string) (v : float)
  : list (string * float) :=
  match m with
  | [] => [(k, v)]
  | (k', v') :: t =>
      if String.eqb k' k then (k, v) :: t else (k', v') :: map_set t k v
  end.

(** [Array.prototype.sort] with a comparator, as the stable insertion sort
    of the exact model *)
Fixpoint sort_insert {A} (cmp : A -> A -> float) (x : A) (l : list A) : list A :=
  match l with
  | [] => [x]
  | y :: t => if 0 <? cmp y x then x :: l else y :: sort_insert cmp x t
  end.

Definition js_sort {A} (cmp : A -> A -> float) (l : list A) : list A :=
  fold_left (fun acc x => sort_insert cmp x acc) l [].

Record bucket : Type := mkBucket { name : string; value : float }.

(** [arr.reduce((a, b) => a + b.value, 0)] *)
Definition sum_values (l : list bucket) : float :=
  fold_left (fun a b => a + value b) l 0.

Section DblViews.

Variable StringToNumber : string -> float.
Variable Number_toString : float -> string.
Variable localeCompare : string -> string -> float.

(** [Number(v)] *)
Definition Number (v : dval) : float :=
  match v with
  | DUndef => nan
  | DNull => 0
  | DBool b => if b then 1 else 0
  | DNum f => f
  | DStr s => StringToNumber s
  end.

(** [toNum(v)]: [const n = Number(v); return isNaN(n) ? NaN : n;] *)
Definition toNum (v : dval) : float :=
  let n := Number v in if is_nan n then nan else n.

(** [String(v)] *)
Definition String_of (v : dval) : string :=
  match v with
  | DUndef => "undefined"
  | DNull => "null"
  | DBool true => "true"
  | DBool false => "false"
  | DNum n => Number_toString n
  | DStr s => s
  end.

(** [safeCat(v)]: [v == null || v === "" ? "Unknown" : String(v)] *)
Definition safeCat (v : dval) : string :=
  match v with
  | DUndef | DNull | DStr EmptyString => "Unknown"
  | _ => String_of v
  end.

(** one step of the grouping loop of [baseAgg]:
    [const key = safeCat(r[cat]);
     const addVal = metric === "count" ? 1 : toNum(r[metric]);
     const curr = m.get(key) || 0;
     m.set(key, curr + (isFiniteNum(addVal) ? addVal : 0));] *)
Definition agg_step (cat metric : string) (m : list (string * float)) (r : drow)
  : list (string * float) :=
  let key := safeCat (get r cat) in
  let addVal := if String.eqb metric "count" then 1 else toNum (get r metric) in
  let curr := match map_get m key with Some c => js_or c 0 | None => 0 end in
  map_set m key (curr + (if isFiniteNum addVal then addVal else 0)).

(** the comparator chosen by the sort selector *)
Definition agg_cmp (sortBy : string) : bucket -> bucket -> float :=
  if String.eqb sortBy "name"
  then fun a b => localeCompare (name a) (name b)
  else fun a b => value b - value a.

(** top-N collapse of the sorted entries *)
Definition collapse (topN : Z) (entries : list bucket) : list bucket :=
  if ((0 <? topN) && (topN <? Z.of_nat (length entries)))%Z then
    let head := firstn (Z.to_nat topN) entries in
    let tail := skipn (Z.to_nat topN) entries in
    let otherSum := sum_values tail in
    head ++ [mkBucket "Other" otherSum]
  else entries.

(** [baseAgg] of the treatment view *)
Definition baseAgg (rows : list drow) (cat metric sortBy : string) (topN : Z)
  : list bucket :=
  if String.eqb cat "" then [] else
  let m := fold_left (agg_step cat metric) rows [] in
  let entries := map (fun '(k, v) => mkBucket k v) m in
  let entries := js_sort (agg_cmp sortBy) entries in
  collapse topN entries.

(** [trendline] *)
Definition trendline (slope intercept : float) (xMin xMax : dval) : list (float * float) :=
  if negb (isFiniteNum slope) || negb (isFiniteNum intercept) then [] else
  let xmin := Number xMin in
  let xmax := Number xMax in
  if is_nan xmin || is_nan xmax then [] else
  [(xmin, slope * xmin + intercept); (xmax, slope * xmax + intercept)].

End DblViews.

(** [points.filter(([x, y]) => isFiniteNum(x) && isFiniteNum(y))] *)
Definition finite_pairs (points : list (float * float)) : list (float * float) :=
  filter (fun p => isFiniteNum (fst p) && isFiniteNum (snd p)) points.

(** [pts.length] as a number (a length is far below 2^53, so exact) *)
Definition count (pts : list (float * float)) : float :=
  of_uint63 (Uint63.of_Z (Z.of_nat (length pts))).

(** [pts.reduce((a, p) => a + f(p), 0)] *)
Definition sum_by (f : float * float -> float) (pts : list (float * float)) : float :=
  fold_left (fun a p => a + f p) pts 0.

(** the denominator of the slope, [n * sxx - sx * sx] *)
Definition slope_den (pts : list (float * float)) : float :=
  count pts * sum_by (fun p => fst p * fst p) pts - sum_by fst pts * sum_by fst pts.

(** the denominator of [r],
    [Math.sqrt((n * sxx - sx * sx) * (n * syy - sy * sy))] *)
Definition r_den (pts : list (float * float)) : float :=
  let n := count pts in
  let sx := sum_by fst pts in
  let sy := sum_by snd pts in
  let sxx := sum_by (fun p => fst p * fst p) pts in
  let syy := sum_by (fun p => snd p * snd p) pts in
  sqrt ((n * sxx - sx * sx) * (n * syy - sy * sy)).

Record stats : Type := mkStats { st_r : float; st_slope : float; st_intercept : float }.

(** [linearStats(points)] *)
Definition linearStats (points : list (float * float)) : stats :=
  let pts := finite_pairs points in
  if (length pts <? 2)%nat then mkStats nan nan nan else
  let n := count pts in
  let sx := sum_by fst pts in
  let sy := sum_by snd pts in
  let sxy := sum_by (fun p => fst p * snd p) pts in
  let numR := n * sxy - sx * sy in
  let denR := r_den pts in
  let r := if denR =? 0 then nan else numR / denR in
  let slope := (n * sxy - sx * sy) / js_or (slope_den pts) nan in
  let intercept := (sy - slope * sx) / n in
  mkStats r slope intercept.

End Dbl.

(** ** Auxiliary notions of the proofs *)





(** every record followed by [sep] *)
Definition terminated (sep : string) (records : list string) : string :=
  fold_right (fun r acc => String.append r (String.append sep acc)) EmptyString records.

(** * Properties *)

Example Number_examples :
  StringToNumber "Infinity"%string = PInf /\ StringToNumber "x"%string = NaN /\
  StringToNumber ""%string = Fin 0 /\ StringToNumber " -Infinity "%string = NInf /\
  isNaN (StringToNumber "1.5e3"%string) = false /\ StringToNumber "1e"%string = NaN /\
  StringToNumber "."%string = NaN /\ isNaN (StringToNumber "0x1F"%string) = false /\
  StringToNumber "-0x1F"%string = NaN.
Proof. repeat split; vm_compute; reflexivity. Qed.

Example Number_value_examples :
  StringToNumber "12"%string = Fin 12 /\ StringToNumber "-2.5"%string = Fin (-(5/2)).
Proof.
  split; unfold StringToNumber; simpl; f_equal;
    unfold digits_value; simpl; field.
Qed.

(** ** Column classification *)

Lemma numeric_col_spec (rows : list row) (k : string) :
  numeric_col rows k = true <->
  (forall r, In r rows -> get r k = JStr "" \/ Number (get r k) <> NaN).
Proof.
  unfold numeric_col; rewrite forallb_forall; split; intros H r Hr;
    specialize (H r Hr).
  - apply orb_true_iff in H as [H | H].
    + left; destruct (get r k) as [| | | | [|]]; simpl in H; congruence.
    + right; destruct (Number (get r k)); simpl in H; congruence.
  - apply orb_true_iff; destruct H as [H | H].
    + left; rewrite H; reflexivity.
    + right; destruct (Number (get r k)); simpl; congruence.
Qed.

(** C9 (counterexample): a column holding the string ["Infinity"] is
    classified numeric although [Number("Infinity")] is not finite. *)
Lemma C9_Infinity_column_numeric :
  let rows := [[("a"%string, JStr "Infinity")]] in
  In "a"%string (fst (numericCols rows)) /\
  forallb (fun r => is_empty_str (get r "a") || isFiniteNum (Number (get r "a")))
    rows = false.
Proof. vm_compute; split; [left; reflexivity | reflexivity]. Qed.

(** C9: the keys of the first row are partitioned: a key is numeric iff
    every row's value for it is the empty string or a value whose [Number]
    is not NaN (infinities included), and categorical otherwise; an empty
    row set has no columns; the example of the spec. *)
Theorem numericCols_classification (r0 : row) (rest : list row) :
  (forall k, In k (fst (numericCols (r0 :: rest))) <->
             In k (map fst r0) /\
             (forall r, In r (r0 :: rest) ->
                        get r k = JStr "" \/ Number (get r k) <> NaN)) /\
  (forall k, In k (snd (numericCols (r0 :: rest))) <->
             In k (map fst r0) /\ ~ In k (fst (numericCols (r0 :: rest)))) /\
  numericCols [] = ([], []) /\
  numericCols [[("a"%string, JStr "1"); ("b"%string, JStr "x")];
               [("a"%string, JStr "2"); ("b"%string, JStr "")]]
  = (["a"%string], ["b"%string]).
Proof.
  split; [|split; [|split]].
  - intros k; split.
    + intros H; simpl in H; apply filter_In in H as [H1 H2].
      split; [assumption|]; apply numeric_col_spec; assumption.
    + intros [H1 H2]; simpl; apply filter_In; split; [assumption|].
      apply numeric_col_spec; assumption.
  - intros k; split.
    + intros H; simpl in H; apply filter_In in H as [H1 H].
      split; [assumption|].
      apply negb_true_iff in H; intros Hin; simpl in Hin.
      assert (existsb (String.eqb k)
                (filter (numeric_col (r0 :: rest)) (map fst r0)) = true) as E.
      { apply existsb_exists; exists k; split; [assumption | apply String.eqb_refl]. }
      congruence.
    + intros [H1 H2]; simpl; apply filter_In; split; [assumption|].
      apply negb_true_iff, not_true_iff_false; intros E.
      apply existsb_exists in E as [k' [Hk' Ek]].
      apply String.eqb_eq in Ek; subst k'; apply H2; exact Hk'.
  - reflexivity.
  - vm_compute; reflexivity.
Qed.

(** C2 (code bug): a genuine category named ["Other"] that survives the
    top-N cut sits next to the synthetic ["Other"] bucket, so the bucket
    names of one result are not distinct: categories Other, Other, A, B
    counted with [topN = 1] give two buckets named ["Other"]. *)
Theorem baseAgg_duplicate_Other Number_toString localeCompare :
  let rows := [[("t"%string, JStr "Other")]; [("t"%string, JStr "Other")];
               [("t"%string, JStr "A")]; [("t"%string, JStr "B")]] in
  map name (baseAgg Number_toString localeCompare rows "t" "count" "value" 1)
  = ["Other"%string; "Other"%string] /\
  ~ NoDup (map name (baseAgg Number_toString localeCompare rows "t" "count" "value" 1)).
Proof.
  intros rows.
  assert (E : map name (baseAgg Number_toString localeCompare rows "t" "count" "value" 1)
              = ["Other"%string; "Other"%string]).
  { unfold baseAgg, rows; simpl.
    unfold js_sort, agg_cmp; simpl.
    repeat (unfold Rltb; destruct (Rlt_dec _ _); [lra|]; simpl).
    reflexivity. }
  split; [exact E|].
  rewrite E; intros H; inversion H as [|x l Hnin Hnd]; apply Hnin; left; reflexivity.
Qed.

(** ** Moving average *)



Lemma movingAvg_loop_length (win : Z) (arr : list num) :
  forall q s, length (movingAvg_loop win q s arr) = length arr.
Proof. induction arr as [|v rest IH]; intros q s; simpl; [reflexivity|]; rewrite IH; reflexivity. Qed.








(** ** Regression statistics *)















Lemma jdiv_fin (a b : R) : b <> 0 -> jdiv (Fin a) (Fin b) = Fin (a / b).
Proof. intros Hb; unfold jdiv, Reqb; destruct (Req_dec_T b 0); [contradiction | reflexivity]. Qed.



(** ** Index normalisation *)

Lemma firstFinite_after_nonfinite (pre post : list num) (b : num) :
  forallb (fun v => negb (isFiniteNum v)) pre = true -> isFiniteNum b = true ->
  firstFinite (pre ++ b :: post) = b.
Proof.
  induction pre as [|v pre IH]; simpl; intros Hpre Hb.
  - rewrite Hb; reflexivity.
  - apply andb_true_iff in Hpre as [Hv Hpre].
    destruct (isFiniteNum v); [discriminate|]; apply IH; assumption.
Qed.

Lemma firstFinite_none (arr : list num) :
  forallb (fun v => negb (isFiniteNum v)) arr = true -> isFiniteNum (firstFinite arr) = false.
Proof.
  induction arr as [|v arr IH]; simpl; intros H; [reflexivity|].
  apply andb_true_iff in H as [Hv H]; destruct (isFiniteNum v); [discriminate|].
  apply IH; assumption.
Qed.

(** C6 (counterexample): a series without a finite sample is left as it is,
    so a column holding the string ["Infinity"] normalises to [+Infinity],
    not to NaN. *)
Lemma C6_Infinity_series_kept :
  normalize_index (series_of [[("v"%string, JStr "Infinity")]] "v") = [PInf] /\
  [PInf] <> [NaN].
Proof. split; [vm_compute; reflexivity | discriminate]. Qed.

(** C6: when the series has a finite sample, every finite sample [v] maps
    to [(v / base) * 100], [base] being the first finite sample, and every
    other sample to NaN; when it has none the series is returned unchanged
    (NaN samples stay NaN and infinite ones stay infinite). *)
Theorem normalize_index_spec :
  (forall pre b post,
     forallb (fun v => negb (isFiniteNum v)) pre = true -> isFiniteNum b = true ->
     normalize_index (pre ++ b :: post)
     = map (fun v => if isFiniteNum v then jmul (jdiv v b) (Fin 100) else NaN)
           (pre ++ b :: post)) /\
  (forall arr, forallb (fun v => negb (isFiniteNum v)) arr = true ->
     normalize_index arr = arr).
Proof.
  split.
  - intros pre b post Hpre Hb; unfold normalize_index.
    rewrite (firstFinite_after_nonfinite pre post b Hpre Hb), Hb; reflexivity.
  - intros arr H; unfold normalize_index; rewrite (firstFinite_none arr H); reflexivity.
Qed.

(** ** CSV export *)

Lemma append_assoc_str (a b c : string) :
  String.append a (String.append b c) = String.append (String.append a b) c.
Proof. induction a as [|ch a IH]; simpl; [reflexivity|]; rewrite IH; reflexivity. Qed.

Lemma append_empty_str (a : string) : String.append a EmptyString = a.
Proof. induction a as [|ch a IH]; simpl; [reflexivity|]; rewrite IH; reflexivity. Qed.

Lemma terminated_cons (sep r : string) (l : list string) :
  terminated sep (r :: l) = String.append r (String.append sep (terminated sep l)).
Proof. reflexivity. Qed.

Lemma fold_join_terminated (sep : string) (l : list string) (a : string) :
  String.append (fold_left (fun acc y => String.append acc (String.append sep y)) l a) sep
  = String.append a (String.append sep (terminated sep l)).
Proof.
  revert a; induction l as [|y l IH]; intros a; cbn [fold_left].
  - unfold terminated; cbn [fold_right]; rewrite append_empty_str; reflexivity.
  - rewrite IH, terminated_cons, !append_assoc_str; reflexivity.
Qed.

Lemma join_terminated (sep x : string) (l : list string) :
  String.append (join sep (x :: l)) sep = terminated sep (x :: l).
Proof. unfold join; rewrite fold_join_terminated; reflexivity. Qed.

Lemma fold_lines_terminated (f : list jsval -> string) (data : list (list jsval)) (a : string) :
  fold_left (fun csv line => String.append csv (String.append (f line) nl)) data a
  = String.append a (terminated nl (map f data)).
Proof.
  revert a; induction data as [|line data IH]; intros a; cbn [fold_left map].
  - unfold terminated; cbn [fold_right]; rewrite append_empty_str; reflexivity.
  - rewrite IH, terminated_cons, !append_assoc_str; reflexivity.
Qed.

(** C7 (counterexample): the factors view's export of one data row is the
    header line, a newline and the data line, with no newline after it. *)
Lemma C7_factors_no_final_newline :
  exportCSV_factors (fun _ => EmptyString) ["x"%string; "y"%string]
    [[JStr "1"; JStr "2"]]
  = Some (String.append "x,y" (String.append nl "1,2")) /\
  exportCSV_factors (fun _ => EmptyString) ["x"%string; "y"%string]
    [[JStr "1"; JStr "2"]]
  <> Some (String.append "x,y" (String.append nl (String.append "1,2" nl))).
Proof. split; [reflexivity | discriminate]. Qed.

(** C7: the treatment view's export is the header line and the data lines,
    each followed by a newline; the performance and factors views' exports
    join the same records with newlines, so every record but the last is
    followed by a newline and the text ends without one. *)
Theorem exportCSV_layout (Number_toString : num -> string)
    (hdr : list string) (data : list (list jsval)) :
  let line := fun l => join "," (map (csvSafe Number_toString) l) in
  let records := join "," hdr :: map line data in
  (forall cat, exportCSV_treatment Number_toString cat hdr data
     = if String.eqb cat "" then None else Some (terminated nl records)) /\
  (forall text, exportCSV_performance Number_toString hdr data = Some text ->
     String.append text nl = terminated nl records) /\
  exportCSV_performance Number_toString hdr data
     = (if data then None else Some (join nl records)) /\
  (forall text, exportCSV_factors Number_toString hdr data = Some text ->
     String.append text nl = terminated nl records) /\
  exportCSV_factors Number_toString hdr data = Some (join nl records).
Proof.
  intros line records.
  split; [|split; [|split; [|split]]].
  - intros cat; unfold exportCSV_treatment; destruct (String.eqb cat ""); [reflexivity|].
    rewrite fold_lines_terminated; unfold records; rewrite terminated_cons.
    rewrite <- append_assoc_str; reflexivity.
  - intros text; unfold exportCSV_performance; destruct data; [discriminate|].
    intros E; assert (Et : text = join nl records)
      by (unfold records, line; injection E as E; rewrite <- E; reflexivity).
    subst text; unfold records; apply join_terminated.
  - unfold exportCSV_performance; destruct data; reflexivity.
  - intros text E; assert (Et : text = join nl records)
      by (unfold records, line; injection E as E; rewrite <- E; reflexivity).
    subst text; unfold records; apply join_terminated.
  - reflexivity.
Qed.

(** ** CSV field quoting *)

Lemma unquote_body_dq_double (s : string) :
  unquote_body (String.append (dq_double s) (String dq EmptyString)) = s.
Proof.
  induction s as [|c t IH].
  - reflexivity.
  - cbn [dq_double]; destruct (Ascii.eqb c dq) eqn:E.
    + apply Ascii.eqb_eq in E; subst c.
      cbn [String.append unquote_body]; rewrite Ascii.eqb_refl, IH; reflexivity.
    + cbn [String.append unquote_body]; rewrite E, IH; reflexivity.
Qed.

Lemma unquote_plain (s : string) : needs_quote s = false -> unquote s = s.
Proof.
  destruct s as [|c t]; simpl; [reflexivity|].
  intros H; apply orb_false_iff in H as [H _].
  apply orb_false_iff in H as [H _]; apply orb_false_iff in H as [H _].
  rewrite H; reflexivity.
Qed.

(** C8: null and undefined serialise to the empty text; a text holding a
    comma, a double quote or a newline is wrapped in double quotes with its
    double quotes doubled, any other text is emitted as it is; un-quoting
    the serialised text gives the original back; the text [a,b] DQ [c]
    serialises to DQ [a,b] DQ DQ [c] DQ, DQ standing for a double quote. *)
Theorem csvSafe_spec (Number_toString : num -> string) :
  csvSafe Number_toString JNull = EmptyString /\
  csvSafe Number_toString JUndef = EmptyString /\
  (forall s, needs_quote s = true ->
     csvSafe Number_toString (JStr s)
     = String dq (String.append (dq_double s) (String dq EmptyString))) /\
  (forall s, needs_quote s = false -> csvSafe Number_toString (JStr s) = s) /\
  (forall s, unquote (csvSafe Number_toString (JStr s)) = s) /\
  csvSafe Number_toString (JStr (String.append "a,b" (String dq "c")))
  = String dq (String.append "a,b" (String dq (String dq (String.append "c" (String dq EmptyString))))).
Proof.
  split; [reflexivity|]; split; [reflexivity|].
  split; [intros s H; unfold csvSafe; simpl; rewrite H; reflexivity|].
  split; [intros s H; unfold csvSafe; simpl; rewrite H; reflexivity|].
  split; [|reflexivity].
  intros s; unfold csvSafe; simpl; destruct (needs_quote s) eqn:H.
  - unfold unquote; rewrite Ascii.eqb_refl; apply unquote_body_dq_double.
  - apply unquote_plain; exact H.
Qed.

(** ** Scatter points *)

(** C10: the size [z] of a scatter point is never NaN and never 0: it is 1
    without a size column, and 1 when the size cell is missing, does not
    parse, or parses to 0; every point of [basePoints] is built this way
    from a row. *)
Theorem basePoints_size Number_toString (rows : list row) (x y z colorBy : string) :
  (forall r, pz (point_of Number_toString x y z colorBy r) <> NaN /\
             pz (point_of Number_toString x y z colorBy r) <> Fin 0) /\
  (forall r, z = EmptyString -> pz (point_of Number_toString x y z colorBy r) = Fin 1) /\
  (forall r, Number (get r z) = NaN \/ Number (get r z) = Fin 0 ->
     pz (point_of Number_toString x y z colorBy r) = Fin 1) /\
  (forall p, In p (basePoints Number_toString rows x y z colorBy) ->
     exists r, In r rows /\ p = point_of Number_toString x y z colorBy r).
Proof.
  split; [|split; [|split]].
  - intros r; unfold point_of; cbn [pz].
    destruct (String.eqb z ""); [split; intros E; (discriminate || (injection E; lra))|].
    unfold js_or, toNum, truthy, Reqb.
    destruct (Number (get r z)) as [a| | |]; simpl;
      [destruct (Req_dec_T a 0) as [Ha|Ha]; simpl | | |];
      split; intros E; (discriminate || (injection E; lra)).
  - intros r ->; reflexivity.
  - intros r Hz; unfold point_of; cbn [pz].
    destruct (String.eqb z ""); [reflexivity|].
    unfold js_or, toNum, truthy.
    destruct Hz as [-> | ->]; [reflexivity|].
    simpl; unfold Reqb; destruct (Req_dec_T 0 0); [reflexivity | congruence].
  - intros p Hp; unfold basePoints in Hp.
    destruct (String.eqb x "" || String.eqb y ""); [contradiction|].
    apply filter_In in Hp as [Hp _]; apply in_map_iff in Hp as [r [<- Hr]].
    exists r; split; [exact Hr | reflexivity].
Qed.

(** ** Instances of the theorems at concrete inputs *)


Lemma normalize_index_spec_witness :
  forallb (fun v => negb (isFiniteNum v)) [NaN] = true /\
  isFiniteNum (Fin 2) = true /\
  normalize_index ([NaN] ++ Fin 2 :: [Fin 4])
  = map (fun v => if isFiniteNum v then jmul (jdiv v (Fin 2)) (Fin 100) else NaN)
        ([NaN] ++ Fin 2 :: [Fin 4]).
Proof.
  split; [reflexivity|]; split; [reflexivity|].
  apply (proj1 normalize_index_spec); reflexivity.
Defined.

Lemma exportCSV_layout_witness :
  exportCSV_factors (fun _ => EmptyString) ["x"%string; "y"%string] [[JStr "1"; JStr "2"]]
  = Some (String.append "x,y" (String.append nl "1,2")) /\
  String.append (String.append "x,y" (String.append nl "1,2")) nl
  = terminated nl ["x,y"%string; "1,2"%string].
Proof.
  split; [reflexivity|].
  pose proof (exportCSV_layout (fun _ => EmptyString) ["x"%string; "y"%string]
                [[JStr "1"; JStr "2"]]) as H.
  cbv zeta in H; destruct H as (_ & _ & _ & H & _).
  apply H; reflexivity.
Defined.

Lemma csvSafe_spec_witness :
  needs_quote "a,b" = true /\
  csvSafe (fun _ => EmptyString) (JStr "a,b")
  = String dq (String.append (dq_double "a,b") (String dq EmptyString)).
Proof.
  split; [reflexivity|].
  apply (proj1 (proj2 (proj2 (csvSafe_spec (fun _ => EmptyString))))); reflexivity.
Defined.

Lemma numericCols_classification_witness :
  (In "a"%string (map fst [("a"%string, JStr "1")]) /\
   forall r, In r [[("a"%string, JStr "1")]] ->
             get r "a" = JStr "" \/ Number (get r "a") <> NaN) /\
  In "a"%string (fst (numericCols [[("a"%string, JStr "1")]])).
Proof.
  assert (H : In "a"%string (map fst [("a"%string, JStr "1")]) /\
              forall r, In r [[("a"%string, JStr "1")]] ->
                        get r "a" = JStr "" \/ Number (get r "a") <> NaN).
  { split; [left; reflexivity|].
    intros r [<- | []]; right; vm_compute; discriminate. }
  split; [exact H|].
  apply (proj1 (numericCols_classification [("a"%string, JStr "1")] []) "a"%string); exact H.
Defined.

Lemma basePoints_size_witness :
  (Number (get [("s"%string, JStr "abc")] "s") = NaN \/
   Number (get [("s"%string, JStr "abc")] "s") = Fin 0) /\
  pz (point_of (fun _ => EmptyString) "x" "y" "s" "" [("s"%string, JStr "abc")]) = Fin 1.
Proof.
  assert (H : Number (get [("s"%string, JStr "abc")] "s") = NaN \/
              Number (get [("s"%string, JStr "abc")] "s") = Fin 0)
    by (left; vm_compute; reflexivity).
  split; [exact H|].
  apply (proj1 (proj2 (proj2 (basePoints_size (fun _ => EmptyString) [] "x" "y" "s" "")))).
  exact H.
Defined.

(** * Further properties of the views *)

(** ** Ranges of a series *)

Lemma fold_min_inv (arr : list num) : forall m : num,
  (m = PInf \/ exists a, m = Fin a) ->
  (fold_left (fun m v => if isFiniteNum v && jlt v m then v else m) arr m = m \/
   exists a, fold_left (fun m v => if isFiniteNum v && jlt v m then v else m) arr m = Fin a
             /\ In (Fin a) arr) /\
  (forall x, In (Fin x) arr -> exists a,
     fold_left (fun m v => if isFiniteNum v && jlt v m then v else m) arr m = Fin a /\ a <= x) /\
  (forall b, m = Fin b -> exists a,
     fold_left (fun m v => if isFiniteNum v && jlt v m then v else m) arr m = Fin a /\ a <= b).
Proof.
  induction arr as [|v t IH]; intros m Hm; cbn [fold_left].
  - split; [left; reflexivity|]; split; [intros x []|].
    intros b ->; exists b; split; [reflexivity | lra].
  - destruct v as [x| | |]; cbn [isFiniteNum andb];
      [| destruct (IH m Hm) as [H1 [H2 H3]];
         (split; [destruct H1 as [E | [a [E Ha]]]; [left; exact E | right; exists a; split;
                    [exact E | right; exact Ha]] |
                  split; [intros x [E | Hx]; [discriminate | apply H2; exact Hx] | exact H3]])..].
    destruct Hm as [-> | [a ->]].
    + cbn [jlt]; destruct (IH (Fin x) (or_intror (ex_intro _ x eq_refl))) as [H1 [H2 H3]].
      split; [destruct H1 as [E | [a [E Ha]]];
              [right; exists x; split; [exact E | left; reflexivity]
              |right; exists a; split; [exact E | right; exact Ha]]|].
      split; [|intros b E; discriminate].
      intros y [E | Hy]; [injection E as <-; apply H3; reflexivity | apply H2; exact Hy].
    + cbn [jlt]; unfold Rltb; destruct (Rlt_dec x a) as [Hlt | Hge].
      * destruct (IH (Fin x) (or_intror (ex_intro _ x eq_refl))) as [H1 [H2 H3]].
        split; [destruct H1 as [E | [c [E Hc]]];
                [right; exists x; split; [exact E | left; reflexivity]
                |right; exists c; split; [exact E | right; exact Hc]]|].
        split.
        -- intros y [E | Hy]; [injection E as <-; apply H3; reflexivity | apply H2; exact Hy].
        -- intros b E; injection E as <-.
           destruct (H3 x eq_refl) as [c [Ec Hc]]; exists c; split; [exact Ec | lra].
      * destruct (IH (Fin a) (or_intror (ex_intro _ a eq_refl))) as [H1 [H2 H3]].
        split; [destruct H1 as [E | [c [E Hc]]];
                [left; exact E | right; exists c; split; [exact E | right; exact Hc]]|].
        split; [|exact H3].
        intros y [E | Hy]; [injection E as <- | apply H2; exact Hy].
        destruct (H3 a eq_refl) as [c [Ec Hc]]; exists c; split; [exact Ec | lra].
Qed.

Lemma fold_max_inv (arr : list num) : forall m : num,
  (m = NInf \/ exists a, m = Fin a) ->
  (fold_left (fun m v => if isFiniteNum v && jlt m v then v else m) arr m = m \/
   exists a, fold_left (fun m v => if isFiniteNum v && jlt m v then v else m) arr m = Fin a
             /\ In (Fin a) arr) /\
  (forall x, In (Fin x) arr -> exists a,
     fold_left (fun m v => if isFiniteNum v && jlt m v then v else m) arr m = Fin a /\ x <= a) /\
  (forall b, m = Fin b -> exists a,
     fold_left (fun m v => if isFiniteNum v && jlt m v then v else m) arr m = Fin a /\ b <= a).
Proof.
  induction arr as [|v t IH]; intros m Hm; cbn [fold_left].
  - split; [left; reflexivity|]; split; [intros x []|].
    intros b ->; exists b; split; [reflexivity | lra].
  - destruct v as [x| | |]; cbn [isFiniteNum andb];
      [| destruct (IH m Hm) as [H1 [H2 H3]];
         (split; [destruct H1 as [E | [a [E Ha]]]; [left; exact E | right; exists a; split;
                    [exact E | right; exact Ha]] |
                  split; [intros x [E | Hx]; [discriminate | apply H2; exact Hx] | exact H3]])..].
    destruct Hm as [-> | [a ->]].
    + cbn [jlt]; destruct (IH (Fin x) (or_intror (ex_intro _ x eq_refl))) as [H1 [H2 H3]].
      split; [destruct H1 as [E | [a [E Ha]]];
              [right; exists x; split; [exact E | left; reflexivity]
              |right; exists a; split; [exact E | right; exact Ha]]|].
      split; [|intros b E; discriminate].
      intros y [E | Hy]; [injection E as <-; apply H3; reflexivity | apply H2; exact Hy].
    + cbn [jlt]; unfold Rltb; destruct (Rlt_dec a x) as [Hlt | Hge].
      * destruct (IH (Fin x) (or_intror (ex_intro _ x eq_refl))) as [H1 [H2 H3]].
        split; [destruct H1 as [E | [c [E Hc]]];
                [right; exists x; split; [exact E | left; reflexivity]
                |right; exists c; split; [exact E | right; exact Hc]]|].
        split.
        -- intros y [E | Hy]; [injection E as <-; apply H3; reflexivity | apply H2; exact Hy].
        -- intros b E; injection E as <-.
           destruct (H3 x eq_refl) as [c [Ec Hc]]; exists c; split; [exact Ec | lra].
      * destruct (IH (Fin a) (or_intror (ex_intro _ a eq_refl))) as [H1 [H2 H3]].
        split; [destruct H1 as [E | [c [E Hc]]];
                [left; exact E | right; exists c; split; [exact E | right; exact Hc]]|].
        split; [|exact H3].
        intros y [E | Hy]; [injection E as <- | apply H2; exact Hy].
        destruct (H3 a eq_refl) as [c [Ec Hc]]; exists c; split; [exact Ec | lra].
Qed.

Lemma finiteMin_char (arr : list num) :
  (finiteMin arr = PInf /\ forall v, In v arr -> isFiniteNum v = false) \/
  (exists a, finiteMin arr = Fin a /\ In (Fin a) arr /\ forall x, In (Fin x) arr -> a <= x).
Proof.
  unfold finiteMin.
  destruct (fold_min_inv arr PInf (or_introl eq_refl)) as [[E | [a [E Ha]]] [H2 _]].
  - left; split; [exact E|].
    intros v Hv; destruct v as [x| | |]; try reflexivity.
    destruct (H2 x Hv) as [a [Ea _]]; congruence.
  - right; exists a; split; [exact E|]; split; [exact Ha|].
    intros x Hx; destruct (H2 x Hx) as [a' [Ea' Hle]].
    rewrite E in Ea'; injection Ea' as <-; exact Hle.
Qed.

Lemma finiteMax_char (arr : list num) :
  (finiteMax arr = NInf /\ forall v, In v arr -> isFiniteNum v = false) \/
  (exists a, finiteMax arr = Fin a /\ In (Fin a) arr /\ forall x, In (Fin x) arr -> x <= a).
Proof.
  unfold finiteMax.
  destruct (fold_max_inv arr NInf (or_introl eq_refl)) as [[E | [a [E Ha]]] [H2 _]].
  - left; split; [exact E|].
    intros v Hv; destruct v as [x| | |]; try reflexivity.
    destruct (H2 x Hv) as [a [Ea _]]; congruence.
  - right; exists a; split; [exact E|]; split; [exact Ha|].
    intros x Hx; destruct (H2 x Hx) as [a' [Ea' Hle]].
    rewrite E in Ea'; injection Ea' as <-; exact Hle.
Qed.

(** [finiteMin] is [Infinity] exactly when the series has no finite value;
    otherwise it is the least finite value, taken from the series. *)
Theorem finiteMin_spec (arr : list num) :
  (finiteMin arr = PInf /\ forall v, In v arr -> isFiniteNum v = false) \/
  (exists a, finiteMin arr = Fin a /\ In (Fin a) arr /\ forall x, In (Fin x) arr -> a <= x).
Proof. exact (finiteMin_char arr). Qed.

(** [finiteMax] is [-Infinity] exactly when the series has no finite value;
    otherwise it is the greatest finite value, taken from the series. *)
Theorem finiteMax_spec (arr : list num) :
  (finiteMax arr = NInf /\ forall v, In v arr -> isFiniteNum v = false) \/
  (exists a, finiteMax arr = Fin a /\ In (Fin a) arr /\ forall x, In (Fin x) arr -> x <= a).
Proof. exact (finiteMax_char arr). Qed.

(** ** Min-max normalisation *)

Lemma normalize_minmax_elem (arr : list num) (v : num) :
  In v (normalize_minmax arr) ->
  v = NaN \/
  exists x a b, In (Fin x) arr /\ finiteMin arr = Fin a /\ finiteMax arr = Fin b /\
                a < b /\ v = Fin ((x - a) / (b - a)).
Proof.
  unfold normalize_minmax; cbv zeta; intros H.
  apply in_map_iff in H as [w [<- Hw]].
  destruct w as [x| | |]; cbn [isFiniteNum andb]; [|left; reflexivity ..].
  destruct (finiteMin_char arr) as [[_ Hno] | [a [Emn _]]];
    [specialize (Hno _ Hw); discriminate|].
  destruct (finiteMax_char arr) as [[_ Hno] | [b [Emx _]]];
    [specialize (Hno _ Hw); discriminate|].
  rewrite Emn, Emx; unfold jsub; cbn [jneg jadd jlt].
  unfold Rltb; destruct (Rlt_dec 0 (b + - a)) as [Hp | Hp]; [|left; reflexivity].
  right; exists x, a, b.
  split; [exact Hw|]; split; [reflexivity|]; split; [reflexivity|]; split; [lra|].
  rewrite jdiv_fin by lra; reflexivity.
Qed.

(** Min-max normalisation never leaves [0, 1]: every value it produces is
    NaN or a finite number between 0 and 1. *)
Theorem normalize_minmax_range (arr : list num) :
  Forall (fun v => v = NaN \/ exists r, v = Fin r /\ 0 <= r <= 1) (normalize_minmax arr).
Proof.
  apply Forall_forall; intros v Hv.
  destruct (normalize_minmax_elem arr v Hv) as [E | [x [a [b [Hx [Ea [Eb [Hab E]]]]]]]];
    [left; exact E | right].
  destruct (finiteMin_char arr) as [[E1 _] | [a' [E1 [_ H1]]]];
    rewrite Ea in E1; [discriminate | injection E1 as <-].
  destruct (finiteMax_char arr) as [[E2 _] | [b' [E2 [_ H2]]]];
    rewrite Eb in E2; [discriminate | injection E2 as <-].
  specialize (H1 x Hx); specialize (H2 x Hx).
  exists ((x - a) / (b - a)); split; [exact E|]; split.
  - unfold Rdiv; apply Rmult_le_pos; [lra | left; apply Rinv_0_lt_compat; lra].
  - replace 1 with ((b - a) / (b - a)) by (field; lra).
    unfold Rdiv; apply Rmult_le_compat_r; [left; apply Rinv_0_lt_compat; lra | lra].
Qed.

(** A series whose finite values are all equal (a flat series, or one
    without finite values) normalises to NaN everywhere: the range [rng] is
    not positive. *)
Theorem normalize_minmax_flat (arr : list num) :
  (forall a b, In (Fin a) arr -> In (Fin b) arr -> a = b) ->
  forall v, In v (normalize_minmax arr) -> v = NaN.
Proof.
  intros Hflat v Hv.
  destruct (normalize_minmax_elem arr v Hv) as [E | [x [a [b [_ [Ea [Eb [Hab _]]]]]]]];
    [exact E|].
  destruct (finiteMin_char arr) as [[E1 _] | [a' [E1 [Ha _]]]];
    rewrite Ea in E1; [discriminate | injection E1 as <-].
  destruct (finiteMax_char arr) as [[E2 _] | [b' [E2 [Hb _]]]];
    rewrite Eb in E2; [discriminate | injection E2 as <-].
  specialize (Hflat a b Ha Hb); lra.
Qed.

Lemma normalize_minmax_flat_witness :
  (forall a b, In (Fin a) [Fin 5; NaN; Fin 5] -> In (Fin b) [Fin 5; NaN; Fin 5] -> a = b) /\
  (forall v, In v (normalize_minmax [Fin 5; NaN; Fin 5]) -> v = NaN).
Proof.
  assert (H : forall a b, In (Fin a) [Fin 5; NaN; Fin 5] ->
                          In (Fin b) [Fin 5; NaN; Fin 5] -> a = b).
  { intros a b Ha Hb.
    destruct Ha as [Ea | [Ea | [Ea | []]]]; try discriminate;
    destruct Hb as [Eb | [Eb | [Eb | []]]]; try discriminate;
    injection Ea as <-; injection Eb as <-; reflexivity. }
  split; [exact H | exact (normalize_minmax_flat _ H)].
Defined.

(** ** The series pipeline of the performance view *)

(** Capping, smoothing and normalising keep every series aligned with the
    plotted rows: the series has one value per row of [limited], that is
    [min(cap, rows.length)] values when [cap > 0] and [rows.length] values
    otherwise, whatever the window and the normalisation. *)
Theorem processed_series_length (rows : list row) (cap smooth : Z) (normalize key : string) :
  length (processed_series rows cap smooth normalize key)
  = (if (0 <? cap)%Z then Nat.min (Z.to_nat cap) (length rows) else length rows).
Proof.
  unfold processed_series; cbv zeta.
  assert (Hl : length (series_of (limited_rows rows cap) key)
               = (if (0 <? cap)%Z then Nat.min (Z.to_nat cap) (length rows) else length rows)).
  { unfold series_of, limited_rows; rewrite length_map.
    destruct (0 <? cap)%Z; [apply length_firstn | reflexivity]. }
  rewrite <- Hl; clear Hl.
  set (s0 := series_of (limited_rows rows cap) key).
  assert (Hs : length (if (0 <? smooth)%Z then movingAvg s0 smooth else s0) = length s0).
  { destruct (0 <? smooth)%Z; [|reflexivity].
    unfold movingAvg; destruct (smooth <=? 1)%Z; [reflexivity | apply movingAvg_loop_length]. }
  rewrite <- Hs.
  set (s1 := if (0 <? smooth)%Z then movingAvg s0 smooth else s0).
  destruct (String.eqb normalize "index").
  - unfold normalize_index; cbv zeta.
    destruct (isFiniteNum (firstFinite s1)); [apply length_map | reflexivity].
  - destruct (String.eqb normalize "minmax"); [|reflexivity].
    unfold normalize_minmax; apply length_map.
Qed.

(** ** The range filter of the factors view *)

Lemma filter_all_true {A} (f : A -> bool) (l : list A) :
  (forall x, In x l -> f x = true) -> filter f l = l.
Proof.
  induction l as [|a l IH]; intros H; cbn [filter]; [reflexivity|].
  rewrite (H a (or_introl eq_refl)), IH; [reflexivity|].
  intros x Hx; apply H; right; exact Hx.
Qed.

Lemma jle_fin (a b : R) : a <= b -> jle (Fin a) (Fin b) = true.
Proof.
  intros H; unfold jle; cbn [isNaN orb negb andb jlt].
  unfold Rltb; destruct (Rlt_dec b a); [lra | reflexivity].
Qed.

Lemma in_basePoints_finite Number_toString (rows : list row) (x y z colorBy : string) (p : point) :
  In p (basePoints Number_toString rows x y z colorBy) ->
  exists a b, px p = Fin a /\ py p = Fin b.
Proof.
  unfold basePoints; destruct (String.eqb x "" || String.eqb y ""); [intros []|].
  intros Hp; apply filter_In in Hp as [_ Hf].
  destruct (px p) as [a| | |]; [|discriminate ..].
  destruct (py p) as [b| | |]; [|discriminate ..].
  exists a, b; split; reflexivity.
Qed.

(** The bounds the view derives from the points themselves (the axis
    domains [finiteMin]/[finiteMax] of the x and y values of [basePoints])
    keep every point: the range filter at those bounds removes nothing. *)
Theorem filtered_at_domains_keeps_all Number_toString (rows : list row)
    (x y z colorBy : string) (xMin xMax yMin yMax : jsval) :
  Number xMin = dom_xMin (domains (basePoints Number_toString rows x y z colorBy)) ->
  Number xMax = dom_xMax (domains (basePoints Number_toString rows x y z colorBy)) ->
  Number yMin = dom_yMin (domains (basePoints Number_toString rows x y z colorBy)) ->
  Number yMax = dom_yMax (domains (basePoints Number_toString rows x y z colorBy)) ->
  filtered (basePoints Number_toString rows x y z colorBy) xMin xMax yMin yMax
  = basePoints Number_toString rows x y z colorBy.
Proof.
  intros H1 H2 H3 H4.
  pose proof (in_basePoints_finite Number_toString rows x y z colorBy) as Hfin.
  set (pts := basePoints Number_toString rows x y z colorBy) in *.
  unfold domains in *; cbn [dom_xMin dom_xMax dom_yMin dom_yMax] in *.
  unfold filtered; rewrite H1, H2, H3, H4.
  apply filter_all_true; intros p Hp.
  destruct (Hfin p Hp) as [a [b [Ea Eb]]].
  assert (Ha : In (Fin a) (map px pts)) by (rewrite <- Ea; apply in_map; exact Hp).
  assert (Hb : In (Fin b) (map py pts)) by (rewrite <- Eb; apply in_map; exact Hp).
  destruct (finiteMin_char (map px pts)) as [[_ Hno] | [m1 [E1 [_ B1]]]];
    [specialize (Hno _ Ha); discriminate|].
  destruct (finiteMax_char (map px pts)) as [[_ Hno] | [m2 [E2 [_ B2]]]];
    [specialize (Hno _ Ha); discriminate|].
  destruct (finiteMin_char (map py pts)) as [[_ Hno] | [m3 [E3 [_ B3]]]];
    [specialize (Hno _ Hb); discriminate|].
  destruct (finiteMax_char (map py pts)) as [[_ Hno] | [m4 [E4 [_ B4]]]];
    [specialize (Hno _ Hb); discriminate|].
  rewrite E1, E2, E3, E4, Ea, Eb; cbn [isNaN orb].
  rewrite (jle_fin m1 a (B1 a Ha)), (jle_fin a m2 (B2 a Ha)),
          (jle_fin m3 b (B3 b Hb)), (jle_fin b m4 (B4 b Hb)).
  reflexivity.
Qed.

Lemma filtered_at_domains_keeps_all_witness :
  let rows := [[("a"%string, JNum (Fin 1)); ("b"%string, JNum (Fin 2))];
               [("a"%string, JNum (Fin 3)); ("b"%string, JNum (Fin 5))];
               [("a"%string, JStr "n/a"); ("b"%string, JNum (Fin 7))]] in
  let pts := basePoints (fun _ => EmptyString) rows "a" "b" "" "" in
  (Number (JNum (Fin 1)) = dom_xMin (domains pts) /\
   Number (JNum (Fin 3)) = dom_xMax (domains pts) /\
   Number (JNum (Fin 2)) = dom_yMin (domains pts) /\
   Number (JNum (Fin 5)) = dom_yMax (domains pts)) /\
  filtered pts (JNum (Fin 1)) (JNum (Fin 3)) (JNum (Fin 2)) (JNum (Fin 5)) = pts.
Proof.
  intros rows pts.
  assert (H1 : Number (JNum (Fin 1)) = dom_xMin (domains pts)).
  { cbn -[Rlt_dec]; unfold Rltb; destruct (Rlt_dec 3 1); [lra | reflexivity]. }
  assert (H2 : Number (JNum (Fin 3)) = dom_xMax (domains pts)).
  { cbn -[Rlt_dec]; unfold Rltb; destruct (Rlt_dec 1 3); [reflexivity | lra]. }
  assert (H3 : Number (JNum (Fin 2)) = dom_yMin (domains pts)).
  { cbn -[Rlt_dec]; unfold Rltb; destruct (Rlt_dec 5 2); [lra | reflexivity]. }
  assert (H4 : Number (JNum (Fin 5)) = dom_yMax (domains pts)).
  { cbn -[Rlt_dec]; unfold Rltb; destruct (Rlt_dec 2 5); [reflexivity | lra]. }
  split; [split; [exact H1 | split; [exact H2 | split; [exact H3 | exact H4]]]|].
  exact (filtered_at_domains_keeps_all _ rows "a" "b" "" "" _ _ _ _ H1 H2 H3 H4).
Defined.

Lemma filter_and {A} (f g : A -> bool) (l : list A) :
  filter f (filter g l) = filter (fun x => g x && f x) l.
Proof.
  induction l as [|a l IH]; cbn [filter]; [reflexivity|].
  destruct (g a); cbn [filter andb]; [destruct (f a)|]; rewrite ?IH; reflexivity.
Qed.

(** A cleared bound field is not ignored: [Number("")] is 0, so an empty
    bound keeps, of the points the filter keeps without that bound (a bound
    that reads as NaN), only those on the right side of 0; clearing the lower
    x bound, for instance, hides every point with a negative x. *)
Theorem filtered_empty_bound_is_zero (pts : list point) (xMin xMax yMin yMax nb : jsval) :
  isNaN (Number nb) = true ->
  filtered pts (JStr "") xMax yMin yMax
    = filter (fun p => jle (Fin 0) (px p)) (filtered pts nb xMax yMin yMax) /\
  filtered pts xMin (JStr "") yMin yMax
    = filter (fun p => jle (px p) (Fin 0)) (filtered pts xMin nb yMin yMax) /\
  filtered pts xMin xMax (JStr "") yMax
    = filter (fun p => jle (Fin 0) (py p)) (filtered pts xMin xMax nb yMax) /\
  filtered pts xMin xMax yMin (JStr "")
    = filter (fun p => jle (py p) (Fin 0)) (filtered pts xMin xMax yMin nb).
Proof.
  intros Hnb; assert (E : Number (JStr "") = Fin 0) by reflexivity.
  unfold filtered; cbv zeta; rewrite E, Hnb.
  repeat split; rewrite filter_and; apply filter_ext; intros p;
    change (isNaN (Fin 0)) with false;
    repeat match goal with
           | |- context [isNaN ?a] => destruct (isNaN a)
           | |- context [jle ?a ?b] => destruct (jle a b)
           end; reflexivity.
Qed.

(** ** Colour groups of the factors view *)























(** ** Columns of the grouped table *)







(** ** Labels *)

(** For a positive width [len], [truncate] never returns more than [len]
    code units: a text that fits is returned as it is, a longer one is cut to
    its first [len - 1] code units followed by the ellipsis. *)
Theorem truncate_bounded Number_toString (s : jsval) (len : Z) :
  (1 <= len)%Z ->
  let t := code_units (String_of Number_toString (if truthy_val s then s else JStr "")) in
  (Z.of_nat (length (truncate Number_toString s len)) <= len)%Z /\
  ((Z.of_nat (length t) <= len)%Z -> truncate Number_toString s len = t) /\
  ((len < Z.of_nat (length t))%Z ->
     truncate Number_toString s len = firstn (Z.to_nat (len - 1)) t ++ [ellipsis]).
Proof.
  intros Hl t; unfold truncate; fold t.
  destruct (Z.of_nat (length t) >? len)%Z eqn:E.
  - apply Z.gtb_lt in E.
    unfold slice_to; replace (len - 1 <? 0)%Z with false by (symmetry; apply Z.ltb_ge; lia).
    split; [|split]; [| intros H; lia | intros _; reflexivity].
    rewrite length_app, length_firstn; cbn [length]; lia.
  - rewrite Z.gtb_ltb in E; apply Z.ltb_ge in E.
    split; [|split]; [lia | intros _; reflexivity | intros H; lia].
Qed.

(** ** Instances of the further properties at concrete inputs *)

Lemma filtered_empty_bound_is_zero_witness :
  isNaN (Number (JStr "abc")) = true /\
  filtered [mkPoint (Fin (-1)) (Fin 2) (Fin 0) "a" []; mkPoint (Fin 3) (Fin 2) (Fin 0) "b" []]
    (JStr "") JUndef JUndef JUndef
  = filter (fun p => jle (Fin 0) (px p))
      (filtered [mkPoint (Fin (-1)) (Fin 2) (Fin 0) "a" []; mkPoint (Fin 3) (Fin 2) (Fin 0) "b" []]
         (JStr "abc") JUndef JUndef JUndef).
Proof.
  assert (H : isNaN (Number (JStr "abc")) = true) by reflexivity.
  split; [exact H|].
  exact (proj1 (filtered_empty_bound_is_zero
                  [mkPoint (Fin (-1)) (Fin 2) (Fin 0) "a" []; mkPoint (Fin 3) (Fin 2) (Fin 0) "b" []]
                  JUndef JUndef JUndef JUndef (JStr "abc") H)).
Defined.

Lemma truncate_bounded_witness :
  (1 <= 14)%Z /\
  (Z.of_nat (length (truncate (fun _ => ""%string) (JStr "Supercalifragilistic") 14)) <= 14)%Z.
Proof.
  assert (H : (1 <= 14)%Z) by lia.
  split; [exact H|].
  pose proof (truncate_bounded (fun _ => ""%string) (JStr "Supercalifragilistic") 14 H) as Ht.
  cbv zeta in Ht; exact (proj1 Ht).
Defined.



(** ** Double precision: top-N collapse and the regression sentinels *)

Module DblFacts.
Import Floats.
Import Dbl.
Local Open Scope float_scope.
Local Set Warnings "-inexact-float".

Lemma nan_Prim2SF (x : float) : is_nan x = true -> Prim2SF x = S754_nan.
Proof. intros H; unfold Prim2SF; rewrite H; reflexivity. Qed.

Lemma is_nan_of_Prim2SF (x : float) : Prim2SF x = S754_nan -> is_nan x = true.
Proof. intros H; unfold is_nan; rewrite eqb_spec, H; reflexivity. Qed.

Lemma div_nan_r (x y : float) : is_nan y = true -> is_nan (x / y) = true.
Proof.
  intros H; apply is_nan_of_Prim2SF; rewrite div_spec, (nan_Prim2SF y H).
  destruct (Prim2SF x); reflexivity.
Qed.

Lemma div_nan_l (x y : float) : is_nan x = true -> is_nan (x / y) = true.
Proof.
  intros H; apply is_nan_of_Prim2SF; rewrite div_spec, (nan_Prim2SF x H).
  destruct (Prim2SF y); reflexivity.
Qed.

Lemma mul_nan_l (x y : float) : is_nan x = true -> is_nan (x * y) = true.
Proof.
  intros H; apply is_nan_of_Prim2SF; rewrite mul_spec, (nan_Prim2SF x H).
  destruct (Prim2SF y); reflexivity.
Qed.

Lemma sub_nan_r (x y : float) : is_nan y = true -> is_nan (x - y) = true.
Proof.
  intros H; apply is_nan_of_Prim2SF; rewrite sub_spec, (nan_Prim2SF y H).
  destruct (Prim2SF x); reflexivity.
Qed.

Lemma isFiniteNum_nan (x : float) : is_nan x = true -> isFiniteNum x = false.
Proof. intros H; unfold isFiniteNum, is_finite; rewrite H; reflexivity. Qed.

Lemma trendline_nan (StringToNumber : string -> float) (slope intercept : float)
    (xMin xMax : dval) :
  is_nan slope = true \/ is_nan intercept = true ->
  trendline StringToNumber slope intercept xMin xMax = [].
Proof.
  intros [H | H]; unfold trendline; rewrite (isFiniteNum_nan _ H);
    [reflexivity | rewrite orb_true_r; reflexivity].
Qed.


(** C5 (corrected): [linearStats] returns NaN for all three outputs when
    fewer than two pairs have finite coordinates; it returns NaN for the
    slope and the intercept when the computed denominator [n * sxx - sx * sx]
    is falsy (zero or NaN), and NaN for [r] when the computed [denR] is zero;
    in these cases the trend line is empty for any bounds. *)
Theorem linearStats_sentinels (points : list (float * float)) :
  ((length (finite_pairs points) < 2)%nat ->
     is_nan (st_r (linearStats points)) = true /\
     is_nan (st_slope (linearStats points)) = true /\
     is_nan (st_intercept (linearStats points)) = true /\
     forall StringToNumber xMin xMax,
       trendline StringToNumber (st_slope (linearStats points))
         (st_intercept (linearStats points)) xMin xMax = []) /\
  (truthy (slope_den (finite_pairs points)) = false ->
     is_nan (st_slope (linearStats points)) = true /\
     is_nan (st_intercept (linearStats points)) = true /\
     forall StringToNumber xMin xMax,
       trendline StringToNumber (st_slope (linearStats points))
         (st_intercept (linearStats points)) xMin xMax = []) /\
  ((r_den (finite_pairs points) =? 0) = true ->
     is_nan (st_r (linearStats points)) = true).
Proof.
  assert (Hs : truthy (slope_den (finite_pairs points)) = false ->
               is_nan (st_slope (linearStats points)) = true /\
               is_nan (st_intercept (linearStats points)) = true).
  { intros HD; unfold linearStats.
    destruct (length (finite_pairs points) <? 2)%nat; [split; reflexivity|].
    cbv zeta; cbn [st_slope st_intercept]; unfold js_or; rewrite HD.
    assert (Hsl : forall a, is_nan (a / nan) = true) by (intros a; apply div_nan_r; reflexivity).
    split; [apply Hsl|].
    apply div_nan_l, sub_nan_r, mul_nan_l, Hsl. }
  split; [|split].
  - intros Hlt; unfold linearStats.
    rewrite (proj2 (Nat.ltb_lt _ _) Hlt); cbn [st_r st_slope st_intercept].
    split; [reflexivity | split; [reflexivity | split; [reflexivity|]]].
    intros S xMin xMax; apply trendline_nan; left; reflexivity.
  - intros HD; destruct (Hs HD) as [H1 H2].
    split; [exact H1 | split; [exact H2|]].
    intros S xMin xMax; apply trendline_nan; left; exact H1.
  - intros HR; unfold linearStats.
    destruct (length (finite_pairs points) <? 2)%nat; [reflexivity|].
    cbv zeta; cbn [st_r]; rewrite HR; reflexivity.
Qed.

(** C5, counterexample to "no defective trend line from a degenerate sample":
    five points all at [x = 0.7] (so no line through them has a slope) give a
    computed [n * sxx - sx * sx] of about [-1.8e-15] rather than 0, hence a
    finite slope of 4 and intercept of -0.8, and a two-point trend line for
    any bounds that are numbers. *)
Lemma C5_rounded_degenerate_sample :
  let points := [(0.7, 0); (0.7, 1); (0.7, 2); (0.7, 3); (0.7, 4)] in
  Forall (fun p => fst p = 0.7) points /\
  (slope_den (finite_pairs points) =? 0) = false /\
  st_slope (linearStats points) = 4 /\
  st_intercept (linearStats points) = -0.8 /\
  forall StringToNumber xMin xMax,
    is_nan (Number StringToNumber xMin) = false ->
    is_nan (Number StringToNumber xMax) = false ->
    length (trendline StringToNumber (st_slope (linearStats points))
              (st_intercept (linearStats points)) xMin xMax) = 2%nat.
Proof.
  intros points.
  assert (Hsl : st_slope (linearStats points) = 4) by (vm_compute; reflexivity).
  assert (Hic : st_intercept (linearStats points) = -0.8) by (vm_compute; reflexivity).
  split; [repeat constructor|].
  split; [vm_compute; reflexivity|].
  split; [exact Hsl|]; split; [exact Hic|].
  intros S xMin xMax H1 H2; rewrite Hsl, Hic; unfold trendline.
  rewrite H1, H2; reflexivity.
Qed.

(** An instance of [linearStats_sentinels] at three points with equal
    abscissas, whose computed slope denominator is exactly 0. *)
Lemma linearStats_sentinels_witness :
  let points := [(1, 0); (1, 1); (1, 2)] in
  truthy (slope_den (finite_pairs points)) = false /\
  is_nan (st_slope (linearStats points)) = true /\
  is_nan (st_intercept (linearStats points)) = true.
Proof.
  intros points.
  assert (HD : truthy (slope_den (finite_pairs points)) = false) by (vm_compute; reflexivity).
  split; [exact HD|].
  destruct (proj1 (proj2 (linearStats_sentinels points)) HD) as [H1 [H2 _]].
  split; [exact H1 | exact H2].
Defined.

End DblFacts.
